(** * The [mylobsterpp] Conan recipe: options, toolchain variables, package info

    A shallow embedding of [conanfile.py] (class [MyLobsterPPConan]).  The
    recipe is a Python object whose methods mutate [self] and may raise; the
    methods are embedded in a state-and-exception monad over the recipe
    object.  Python dictionaries (the option tables, [tc.variables], the
    [cpp_info] properties) are finite maps with string keys.

    [generate] and [package_info] are embedded statement by statement;
    [build] and [package] are embedded over the steps of the external CMake
    helper; [layout] only calls [cmake_layout] and is left out. *)

From stdpp Require Import gmap strings list fin_maps.

Open Scope string_scope.

(** ** Python values and exceptions *)

(** The Python values that the recipe stores in its dictionaries, together
    with the values a caller may pass as an option override. *)
Inductive pyval : Type :=
  | PyNone
  | PyBool (b : bool)
  | PyInt (z : Z)
  | PyStr (s : string).

#[global] Instance pyval_eq_dec : EqDecision pyval.
Proof. solve_decision. Defined.

(** Exceptions.  The first three are the error families of the pipeline
    description; [ConanException] is what attribute access on an option that
    does not exist raises. *)
Inductive error : Type :=
  | InvalidOptionError
  | UnsupportedPlatformError
  | InstallError
  | ConanException (msg : string).

#[global] Instance error_eq_dec : EqDecision error.
Proof. solve_decision. Defined.

Inductive result (A : Type) : Type :=
  | Ok (a : A)
  | Raise (e : error).
Arguments Ok {A} a.
Arguments Raise {A} e.

(** ** The recipe object *)

(** [settings = "os", "compiler", "build_type", "arch"] *)
Record Settings : Type := mkSettings {
  os : string;
  compiler : string;
  build_type : string;
  arch : string;
}.

(** [self.cpp_info]: the attributes and the property dictionary that
    [package_info] assigns. *)
Record CppInfo : Type := mkCppInfo {
  libs : list string;
  properties : gmap string string;
  requires : list string;
  system_libs : list string;
}.

(** What the generators leave in the generators folder: the variables of the
    toolchain file written by [CMakeToolchain.generate] and the dependency
    names written by [CMakeDeps.generate]; [None] while nothing is written. *)
Record Generated : Type := mkGenerated {
  toolchain_file : option (gmap string pyval);
  deps_file : option (list string);
}.

Record ConanFile : Type := mkConanFile {
  options : gmap string pyval;
  settings : Settings;
  cpp_info : CppInfo;
  generators_folder : Generated;
}.

Definition set_options (o : gmap string pyval) (self : ConanFile) : ConanFile :=
  mkConanFile o (settings self) (cpp_info self) (generators_folder self).

Definition set_cpp_info (c : CppInfo) (self : ConanFile) : ConanFile :=
  mkConanFile (options self) (settings self) c (generators_folder self).

Definition set_generators_folder (g : Generated) (self : ConanFile) : ConanFile :=
  mkConanFile (options self) (settings self) (cpp_info self) g.

(** ** Methods as state-and-exception computations over [self] *)

Definition M (A : Type) : Type := ConanFile -> result A * ConanFile.

Definition ret {A} (a : A) : M A := fun self => (Ok a, self).

Definition raise {A} (e : error) : M A := fun self => (Raise e, self).

Definition bind {A B} (m : M A) (k : A -> M B) : M B :=
  fun self =>
    match m self with
    | (Ok a, self') => k a self'
    | (Raise e, self') => (Raise e, self')
    end.

Definition modify (f : ConanFile -> ConanFile) : M unit :=
  fun self => (Ok tt, f self).

Declare Scope recipe_scope.
Delimit Scope recipe_scope with recipe.
Notation "x <- m ;; k" := (bind m (fun x => k))
  (at level 100, m at next level, right associativity) : recipe_scope.
Notation "m ;;; k" := (bind m (fun _ => k))
  (at level 100, right associativity) : recipe_scope.
Open Scope recipe_scope.

(** ** The part of the Conan API that the recipe calls *)

(** [self.options.<name>]: the value of an option; an option that does not
    exist raises. *)
Definition option_attr (name : string) : M pyval :=
  fun self =>
    match options self !! name with
    | Some v => (Ok v, self)
    | None => (Raise (ConanException name), self)
    end.

(** [self.settings.os] *)
Definition settings_os : M string :=
  fun self => (Ok (os (settings self)), self).

(** A [CMakeToolchain] object; [variables] is its dictionary of cache
    variables, empty in a new object. *)
Record Toolchain : Type := mkToolchain {
  variables : gmap string pyval;
}.

Definition CMakeToolchain : M Toolchain :=
  ret (mkToolchain ∅).

(** [tc.variables[key] = value] *)
Definition set_variable (key : string) (value : pyval) (tc : Toolchain) : Toolchain :=
  mkToolchain (<[key := value]> (variables tc)).

(** [tc.generate()] writes the variables to the toolchain file. *)
Definition toolchain_generate (tc : Toolchain) : M unit :=
  modify (fun self =>
    set_generators_folder
      (mkGenerated (Some (variables tc)) (deps_file (generators_folder self)))
      self).

(** A [CMakeDeps] object holds the dependencies of the recipe; the recipe
    declares no requirement, so there is none. *)
Record Deps : Type := mkDeps {
  dependencies : list string;
}.

Definition CMakeDeps : M Deps :=
  ret (mkDeps []).

(** [deps.generate()] writes one descriptor per dependency. *)
Definition deps_generate (deps : Deps) : M unit :=
  modify (fun self =>
    set_generators_folder
      (mkGenerated (toolchain_file (generators_folder self)) (Some (dependencies deps)))
      self).

(** Assignments to the attributes of [self.cpp_info]. *)
Definition set_libs (l : list string) : M unit :=
  modify (fun self =>
    let c := cpp_info self in
    set_cpp_info (mkCppInfo l (properties c) (requires c) (system_libs c)) self).

Definition set_property (key value : string) : M unit :=
  modify (fun self =>
    let c := cpp_info self in
    set_cpp_info
      (mkCppInfo (libs c) (<[key := value]> (properties c)) (requires c) (system_libs c))
      self).

Definition set_requires (l : list string) : M unit :=
  modify (fun self =>
    let c := cpp_info self in
    set_cpp_info (mkCppInfo (libs c) (properties c) l (system_libs c)) self).

Definition set_system_libs (l : list string) : M unit :=
  modify (fun self =>
    let c := cpp_info self in
    set_cpp_info (mkCppInfo (libs c) (properties c) (requires c) l) self).

(** A pure computation that may fail, run inside a method. *)
Definition lift_result {A} (r : result A) : M A :=
  fun self => (r, self).

(** ** The recipe class *)

Module MyLobsterPPConan.

Definition name : string := "mylobsterpp".
Definition version : string := "2026.2.25".

(** [options = {"shared": [True, False], "build_executable": [True, False]}] *)
Definition options : gmap string (list pyval) :=
  <["shared" := [PyBool true; PyBool false]]>
  (<["build_executable" := [PyBool true; PyBool false]]> ∅).

(** [default_options = {"shared": False, "build_executable": True}] *)
Definition default_options : gmap string pyval :=
  <["shared" := PyBool false]>
  (<["build_executable" := PyBool true]> ∅).

(** [generate(self)] *)
Definition generate : M unit :=
  tc <- CMakeToolchain;;
  let tc := set_variable "MYLOBSTER_BUILD_TESTS" (PyBool false) tc in
  shared <- option_attr "shared";;
  let tc := set_variable "MYLOBSTER_BUILD_SHARED" shared tc in
  build_executable <- option_attr "build_executable";;
  let tc := set_variable "MYLOBSTER_BUILD_EXECUTABLE" build_executable tc in
  toolchain_generate tc;;;
  deps <- CMakeDeps;;
  deps_generate deps.

(** [build(self)] and [package(self)] only drive the external CMake helper:
    [cmake.configure()], [cmake.build()] and [cmake.install()] are programs
    outside the recipe, taken here as they come. *)
Section cmake.
Variables cmake_configure cmake_build cmake_install : M unit.

Definition build : M unit :=
  cmake_configure;;;
  cmake_build.

Definition package : M unit :=
  cmake_install.
End cmake.

(** [package_info(self)] *)
Definition package_info : M unit :=
  set_libs ["mylobster_lib"];;;
  set_property "cmake_file_name" "mylobster";;;
  set_property "cmake_target_name" "mylobster::mylobster";;;
  set_requires [];;;
  set_system_libs ["pthread"];;;
  os <- settings_os;;
  if decide (os = "Windows") then set_system_libs ["ws2_32"] else ret tt.

(** An override is admissible when its option is declared and its value is
    one of the values declared for that option. *)
Definition in_domain (k : string) (v : pyval) : bool :=
  match options !! k with
  | Some dom => bool_decide (v ∈ dom)
  | None => false
  end.

Definition valid_overrides (overrides : gmap string pyval) : bool :=
  bool_decide (map_Forall (fun k v => in_domain k v = true) overrides).

(** Modelled from the spec: option resolution is done by the packaging
    framework and is not part of the recipe, which only declares [options]
    and [default_options].  [resolve] takes a partial mapping of option name
    to value and returns the fully resolved options, applying the default of
    every option that is not overridden; it fails with [InvalidOptionError]
    when an override names an option that is not declared or gives a value
    outside the declared domain, and has no side effect. *)
Definition resolve (overrides : gmap string pyval) : result (gmap string pyval) :=
  if valid_overrides overrides
  then Ok (overrides ∪ default_options)
  else Raise InvalidOptionError.

(** Modelled from the spec: the control flow from the Option Set to the
    Toolchain Configurator, which the framework drives: the overrides are
    resolved, the resolved options become [self.options], and [generate]
    runs. *)
Definition configure (overrides : gmap string pyval) : M unit :=
  o <- lift_result (resolve overrides);;
  modify (set_options o);;;
  generate.

End MyLobsterPPConan.

(** ** Observations *)

(** The toolchain configuration that a run of a method left behind. *)
Definition produced_toolchain (r : result unit * ConanFile) : option (gmap string pyval) :=
  toolchain_file (generators_folder (snd r)).

(** The toolchain configuration that this run itself wrote: none when the
    run raised. *)
Definition written_toolchain (r : result unit * ConanFile) : option (gmap string pyval) :=
  match fst r with
  | Ok _ => produced_toolchain r
  | Raise _ => None
  end.

(** The consumer contract read off [self.cpp_info]: link libraries, package
    file name, target name, requirements and system libraries. *)
Record PackageInfo : Type := mkPackageInfo {
  pi_libs : list string;
  pi_file_name : option string;
  pi_target_name : option string;
  pi_requires : list string;
  pi_system_libs : list string;
}.

Definition published (self : ConanFile) : PackageInfo :=
  let c := cpp_info self in
  mkPackageInfo (libs c)
    (properties c !! "cmake_file_name")
    (properties c !! "cmake_target_name")
    (requires c) (system_libs c).

(** A recipe object as the framework hands it to the methods: nothing
    generated, an empty [cpp_info]. *)
Definition empty_cpp_info : CppInfo := mkCppInfo [] ∅ [] [].

Definition new_recipe (o : gmap string pyval) (s : Settings) : ConanFile :=
  mkConanFile o s empty_cpp_info (mkGenerated None None).

Definition linux : Settings := mkSettings "Linux" "gcc" "Release" "x86_64".
Definition windows : Settings := mkSettings "Windows" "msvc" "Release" "x86_64".
Definition baremetal : Settings := mkSettings "baremetal" "gcc" "Release" "armv7".

(** The options with boolean values [sh] and [be]. *)
Definition bool_options (sh be : bool) : gmap string pyval :=
  <["shared" := PyBool sh]> (<["build_executable" := PyBool be]> ∅).

(** Resolved options: every declared option has a value, the value is one
    of those declared for it, and there is no other option. *)
Definition resolved (o : gmap string pyval) : bool :=
  bool_decide (dom o = dom MyLobsterPPConan.options) && MyLobsterPPConan.valid_overrides o.

(** The three variables that [generate] assigns, for option values [shared]
    and [build_executable]. *)
Definition toolchain_variables (shared build_executable : pyval) : gmap string pyval :=
  <["MYLOBSTER_BUILD_EXECUTABLE" := build_executable]>
  (<["MYLOBSTER_BUILD_SHARED" := shared]>
   (<["MYLOBSTER_BUILD_TESTS" := PyBool false]> ∅)).

(** The OS families that the platform branch is written for: Windows, and
    the POSIX-like systems among the values of the [os] setting. *)
Definition posix_like : list string :=
  ["Linux"; "Macos"; "FreeBSD"; "SunOS"; "AIX"; "Android"; "iOS"].

Definition recognized_os (s : string) : bool :=
  bool_decide (s = "Windows") || bool_decide (s ∈ posix_like).

(** The system libraries that [package_info] leaves in [cpp_info]. *)
Definition system_libs_for (s : string) : list string :=
  if decide (s = "Windows") then ["ws2_32"] else ["pthread"].

(** ** Runs on concrete recipes *)

Example generate_defaults_linux :
  MyLobsterPPConan.generate (new_recipe MyLobsterPPConan.default_options linux)
  = (Ok tt,
     mkConanFile MyLobsterPPConan.default_options linux empty_cpp_info
       (mkGenerated
          (Some (<["MYLOBSTER_BUILD_TESTS" := PyBool false]>
                 (<["MYLOBSTER_BUILD_SHARED" := PyBool false]>
                  (<["MYLOBSTER_BUILD_EXECUTABLE" := PyBool true]> ∅))))
          (Some []))).
Proof. vm_compute. reflexivity. Qed.

Example resolve_empty :
  MyLobsterPPConan.resolve ∅ = Ok MyLobsterPPConan.default_options.
Proof. vm_compute. reflexivity. Qed.

Example resolve_yes :
  MyLobsterPPConan.resolve (<["shared" := PyStr "yes"]> ∅) = Raise InvalidOptionError.
Proof. vm_compute. reflexivity. Qed.

Example package_info_windows :
  published (snd (MyLobsterPPConan.package_info (new_recipe ∅ windows)))
  = mkPackageInfo ["mylobster_lib"] (Some "mylobster") (Some "mylobster::mylobster")
      [] ["ws2_32"].
Proof. vm_compute. reflexivity. Qed.

(** ** Running a method *)

Section monad_laws.
Context {A B : Type}.

Lemma bind_ret (a : A) (k : A -> M B) self : bind (ret a) k self = k a self.
Proof. reflexivity. Qed.

Lemma bind_modify (f : ConanFile -> ConanFile) (k : unit -> M B) self :
  bind (modify f) k self = k tt (f self).
Proof. reflexivity. Qed.

Lemma bind_raise (e : error) (k : A -> M B) self :
  bind (raise e) k self = (Raise e, self).
Proof. reflexivity. Qed.

Lemma bind_lift_Ok (a : A) (k : A -> M B) self :
  bind (lift_result (Ok a)) k self = k a self.
Proof. reflexivity. Qed.

Lemma bind_lift_Raise (e : error) (k : A -> M B) self :
  bind (lift_result (Raise e)) k self = (Raise e, self).
Proof. reflexivity. Qed.
End monad_laws.

Lemma option_attr_Some name v self :
  options self !! name = Some v -> option_attr name self = (Ok v, self).
Proof. intros H. unfold option_attr. by rewrite H. Qed.

Lemma option_attr_None name self :
  options self !! name = None ->
  option_attr name self = (Raise (ConanException name), self).
Proof. intros H. unfold option_attr. by rewrite H. Qed.

(** ** The option tables *)

Module OptionSet.
Import MyLobsterPPConan.

Lemma options_lookup k dom :
  MyLobsterPPConan.options !! k = Some dom ->
  (k = "shared" \/ k = "build_executable") /\ dom = [PyBool true; PyBool false].
Proof.
  unfold MyLobsterPPConan.options. intros H.
  destruct (decide (k = "shared")) as [->|Hs].
  - rewrite lookup_insert_eq in H. split; [by left | congruence].
  - rewrite lookup_insert_ne in H by done.
    destruct (decide (k = "build_executable")) as [->|Hb].
    + rewrite lookup_insert_eq in H. split; [by right | congruence].
    + rewrite lookup_insert_ne in H by done. by rewrite lookup_empty in H.
Qed.

Lemma bool_domain v : v ∈ [PyBool true; PyBool false] <-> exists b, v = PyBool b.
Proof.
  split.
  - intros H. apply list_elem_of_In in H. simpl in H.
    destruct H as [<-|[<-|[]]]; eauto.
  - intros [[] ->]; apply list_elem_of_In; simpl; auto.
Qed.

Lemma in_domain_true k v :
  in_domain k v = true <->
  (k = "shared" \/ k = "build_executable") /\ exists b, v = PyBool b.
Proof.
  unfold in_domain. split.
  - destruct (MyLobsterPPConan.options !! k) as [dom|] eqn:E; [|done].
    intros H. apply bool_decide_eq_true in H.
    destruct (options_lookup _ _ E) as [Hk ->]. split; [done|]. by apply bool_domain.
  - intros [[-> | ->] Hb]; apply bool_domain in Hb; simpl;
      by apply bool_decide_eq_true.
Qed.

Lemma valid_overrides_true ov :
  valid_overrides ov = true <->
  forall k v, ov !! k = Some v -> in_domain k v = true.
Proof. unfold valid_overrides. rewrite bool_decide_eq_true. reflexivity. Qed.

Lemma valid_overrides_lookup ov k v :
  valid_overrides ov = true -> ov !! k = Some v ->
  (k = "shared" \/ k = "build_executable") /\ exists b, v = PyBool b.
Proof.
  intros Hv E. apply in_domain_true. revert k v E. by apply valid_overrides_true.
Qed.

Lemma resolve_Ok ov o :
  resolve ov = Ok o <-> valid_overrides ov = true /\ o = ov ∪ default_options.
Proof.
  unfold resolve. destruct (valid_overrides ov); split.
  - intros H. by inversion H.
  - by intros [_ ->].
  - done.
  - by intros [? _].
Qed.

Lemma resolve_Raise ov e :
  resolve ov = Raise e <-> valid_overrides ov = false /\ e = InvalidOptionError.
Proof.
  unfold resolve. destruct (valid_overrides ov); split; try done.
  - by intros [? _].
  - intros H. by inversion H.
  - by intros [_ ->].
Qed.

(** A valid override of an option is a boolean; without one the default is
    a boolean too: resolved options are a pair of booleans. *)
Lemma resolved_bool ov k :
  valid_overrides ov = true ->
  k = "shared" \/ k = "build_executable" ->
  exists b, (ov ∪ default_options) !! k = Some (PyBool b).
Proof.
  intros Hv Hk. rewrite lookup_union.
  destruct (ov !! k) as [v|] eqn:E.
  - destruct (valid_overrides_lookup _ _ _ Hv E) as [_ [b ->]]. exists b.
    by destruct (default_options !! k).
  - destruct Hk as [-> | ->]; eexists; reflexivity.
Qed.

Lemma resolved_other ov k :
  valid_overrides ov = true ->
  k <> "shared" -> k <> "build_executable" ->
  (ov ∪ default_options) !! k = None.
Proof.
  intros Hv Hs Hb. rewrite lookup_union.
  destruct (ov !! k) as [v|] eqn:E.
  - destruct (valid_overrides_lookup _ _ _ Hv E) as [[?|?] _]; done.
  - unfold default_options. by rewrite !lookup_insert_ne, lookup_empty.
Qed.

Lemma resolved_shape ov o :
  resolve ov = Ok o -> exists sh be, o = bool_options sh be.
Proof.
  intros H. apply resolve_Ok in H as [Hv ->].
  destruct (resolved_bool ov "shared" Hv) as [sh Hsh]; [by left|].
  destruct (resolved_bool ov "build_executable" Hv) as [be Hbe]; [by right|].
  exists sh, be. apply map_eq. intros k. unfold bool_options.
  destruct (decide (k = "shared")) as [->|Hs].
  { by rewrite lookup_insert_eq. }
  rewrite lookup_insert_ne by done.
  destruct (decide (k = "build_executable")) as [->|Hb].
  { by rewrite lookup_insert_eq. }
  rewrite lookup_insert_ne, lookup_empty by done.
  by apply resolved_other.
Qed.

Lemma bool_options_valid sh be : valid_overrides (bool_options sh be) = true.
Proof.
  apply valid_overrides_true. intros k v H. apply in_domain_true.
  unfold bool_options in H.
  destruct (decide (k = "shared")) as [->|Hs].
  { rewrite lookup_insert_eq in H. inversion H. eauto. }
  rewrite lookup_insert_ne in H by done.
  destruct (decide (k = "build_executable")) as [->|Hb].
  { rewrite lookup_insert_eq in H. inversion H. eauto. }
  by rewrite lookup_insert_ne, lookup_empty in H.
Qed.

Lemma bool_options_union_default sh be :
  bool_options sh be ∪ default_options = bool_options sh be.
Proof.
  apply map_eq. intros k. rewrite lookup_union. unfold bool_options, default_options.
  destruct (decide (k = "shared")) as [->|Hs].
  { by rewrite !lookup_insert_eq. }
  rewrite !(lookup_insert_ne _ "shared") by done.
  destruct (decide (k = "build_executable")) as [->|Hb].
  { by rewrite !lookup_insert_eq. }
  by rewrite !lookup_insert_ne, lookup_empty.
Qed.

Lemma resolved_bool_options o :
  resolved o = true <-> exists sh be, o = bool_options sh be.
Proof.
  unfold resolved. rewrite andb_true_iff, bool_decide_eq_true. split.
  - intros [Hdom Hv].
    assert (Hin : forall k, k = "shared" \/ k = "build_executable" ->
                            exists b, o !! k = Some (PyBool b)).
    { intros k Hk.
      assert (Hk' : k ∈ dom o).
      { rewrite Hdom. apply elem_of_dom. destruct Hk as [-> | ->]; eexists; reflexivity. }
      apply elem_of_dom in Hk' as [v E].
      destruct (valid_overrides_lookup _ _ _ Hv E) as [_ [b ->]]. eauto. }
    destruct (Hin "shared") as [sh Hsh]; [by left|].
    destruct (Hin "build_executable") as [be Hbe]; [by right|].
    exists sh, be. apply map_eq. intros k. unfold bool_options.
    destruct (decide (k = "shared")) as [->|Hs].
    { by rewrite lookup_insert_eq. }
    rewrite lookup_insert_ne by done.
    destruct (decide (k = "build_executable")) as [->|Hb].
    { by rewrite lookup_insert_eq. }
    rewrite lookup_insert_ne, lookup_empty by done.
    destruct (o !! k) as [v|] eqn:E; [|done].
    destruct (valid_overrides_lookup _ _ _ Hv E) as [[?|?] _]; done.
  - intros (sh & be & ->). split; [|apply bool_options_valid].
    unfold bool_options, MyLobsterPPConan.options.
    by rewrite !dom_insert_L.
Qed.

(** What [resolve] returns is resolved. *)
Lemma resolve_resolved ov o : resolve ov = Ok o -> resolved o = true.
Proof. intros H. apply resolved_bool_options. by eapply resolved_shape. Qed.

(** C2: the option set consists of exactly the two options [shared] and
    [build_executable], each declared with the boolean domain
    [[True, False]]; the declared default of [shared] is [False] and that of
    [build_executable] is [True]; and when a valid invocation does not
    override option [k], resolution succeeds and [k] resolves to its declared
    default. *)
Theorem option_set_defaults (overrides : gmap string pyval) (k : string)
    (Hvalid : valid_overrides overrides = true)
    (Hunset : overrides !! k = None) :
  dom MyLobsterPPConan.options = ({["shared"; "build_executable"]} : gset string) /\
  MyLobsterPPConan.options !! "shared" = Some [PyBool true; PyBool false] /\
  MyLobsterPPConan.options !! "build_executable" = Some [PyBool true; PyBool false] /\
  dom default_options = dom MyLobsterPPConan.options /\
  default_options !! "shared" = Some (PyBool false) /\
  default_options !! "build_executable" = Some (PyBool true) /\
  exists o, resolve overrides = Ok o /\ o !! k = default_options !! k.
Proof.
  assert (Hdom : dom MyLobsterPPConan.options
                 = ({["shared"; "build_executable"]} : gset string)).
  { unfold MyLobsterPPConan.options. rewrite !dom_insert_L, dom_empty_L. set_solver. }
  split_and!; try done.
  exists (overrides ∪ default_options). split.
  - by apply resolve_Ok.
  - by rewrite lookup_union, Hunset, (left_id None _).
Qed.

Lemma option_set_defaults_witness :
  exists o, resolve (<["shared" := PyBool true]> ∅) = Ok o /\
            o !! "build_executable" = Some (PyBool true).
Proof.
  apply (option_set_defaults (<["shared" := PyBool true]> ∅) "build_executable");
    vm_compute; reflexivity.
Defined.

(** C7: option resolution is idempotent.  For every valid override mapping
    resolution succeeds; two resolutions of the same overrides give the same
    resolved options; and resolving the resolved options once more gives
    them back unchanged. *)
Theorem resolve_idempotent (overrides : gmap string pyval)
    (Hvalid : valid_overrides overrides = true) :
  exists o,
    resolve overrides = Ok o /\
    (forall o1 o2, resolve overrides = Ok o1 -> resolve overrides = Ok o2 -> o1 = o2) /\
    resolve o = Ok o.
Proof.
  exists (overrides ∪ default_options).
  assert (H : resolve overrides = Ok (overrides ∪ default_options))
    by by apply resolve_Ok.
  split; [done|]. split.
  - intros o1 o2 H1 H2. congruence.
  - destruct (resolved_shape _ _ H) as (sh & be & ->).
    apply resolve_Ok. split.
    + apply bool_options_valid.
    + by rewrite bool_options_union_default.
Qed.

Lemma resolve_idempotent_witness :
  exists o,
    resolve (<["build_executable" := PyBool false]> ∅) = Ok o /\
    (forall o1 o2,
        resolve (<["build_executable" := PyBool false]> ∅) = Ok o1 ->
        resolve (<["build_executable" := PyBool false]> ∅) = Ok o2 -> o1 = o2) /\
    resolve o = Ok o.
Proof.
  apply (resolve_idempotent (<["build_executable" := PyBool false]> ∅)).
  vm_compute. reflexivity.
Defined.

End OptionSet.

(** ** The toolchain configurator *)

Module Configurator.

#[local] Abbreviation generate := MyLobsterPPConan.generate.
#[local] Abbreviation resolve := MyLobsterPPConan.resolve.
#[local] Abbreviation configure := MyLobsterPPConan.configure.
#[local] Abbreviation default_options := MyLobsterPPConan.default_options.

(** With both options present [generate] succeeds, writes the three
    variables and an empty dependency descriptor, and changes nothing else. *)
Lemma generate_Ok self shared build_executable :
  options self !! "shared" = Some shared ->
  options self !! "build_executable" = Some build_executable ->
  generate self =
    (Ok tt,
     set_generators_folder
       (mkGenerated (Some (toolchain_variables shared build_executable)) (Some []))
       self).
Proof.
  intros Hs Hb. unfold MyLobsterPPConan.generate, CMakeToolchain.
  rewrite bind_ret. unfold bind at 1. rewrite (option_attr_Some _ _ _ Hs).
  unfold bind at 1. rewrite (option_attr_Some _ _ _ Hb).
  reflexivity.
Qed.

(** A missing option makes [generate] raise before anything is written. *)
Lemma generate_Raise_shared self :
  options self !! "shared" = None ->
  generate self = (Raise (ConanException "shared"), self).
Proof.
  intros Hs. unfold MyLobsterPPConan.generate, CMakeToolchain.
  rewrite bind_ret. unfold bind at 1. by rewrite (option_attr_None _ _ Hs).
Qed.

Lemma generate_Raise_build_executable self shared :
  options self !! "shared" = Some shared ->
  options self !! "build_executable" = None ->
  generate self = (Raise (ConanException "build_executable"), self).
Proof.
  intros Hs Hb. unfold MyLobsterPPConan.generate, CMakeToolchain.
  rewrite bind_ret. unfold bind at 1. rewrite (option_attr_Some _ _ _ Hs).
  unfold bind at 1. by rewrite (option_attr_None _ _ Hb).
Qed.

(** The three ways a run of [generate] can go. *)
Lemma generate_cases self :
  (exists shared build_executable,
      options self !! "shared" = Some shared /\
      options self !! "build_executable" = Some build_executable /\
      generate self =
        (Ok tt,
         set_generators_folder
           (mkGenerated (Some (toolchain_variables shared build_executable)) (Some []))
           self)) \/
  (exists e, generate self = (Raise e, self) /\
             forall self', options self' = options self ->
                           generate self' = (Raise e, self')).
Proof.
  destruct (options self !! "shared") as [sh|] eqn:Hs;
    [destruct (options self !! "build_executable") as [be|] eqn:Hb|].
  - left. exists sh, be. split_and!; try done. by apply generate_Ok.
  - right. eexists. split; [by eapply generate_Raise_build_executable|].
    intros self' Ho. rewrite <- Ho in Hs, Hb.
    by eapply generate_Raise_build_executable.
  - right. eexists. split; [by apply generate_Raise_shared|].
    intros self' Ho. rewrite <- Ho in Hs. by apply generate_Raise_shared.
Qed.

(** C1: for every resolved set of options and every platform (the settings
    and the rest of the recipe object are arbitrary), [generate] succeeds and
    the toolchain configuration it writes consists of exactly three
    variables: the test flag is [False], the shared-library flag is the
    resolved value of [shared] and the executable flag is the resolved value
    of [build_executable], both booleans. *)
Theorem generate_toolchain_configuration (self : ConanFile)
    (Hresolved : resolved (options self) = true) :
  exists shared build_executable : bool,
    options self !! "shared" = Some (PyBool shared) /\
    options self !! "build_executable" = Some (PyBool build_executable) /\
    fst (generate self) = Ok tt /\
    produced_toolchain (generate self) =
      Some (<["MYLOBSTER_BUILD_TESTS" := PyBool false]>
            (<["MYLOBSTER_BUILD_SHARED" := PyBool shared]>
             (<["MYLOBSTER_BUILD_EXECUTABLE" := PyBool build_executable]> ∅))).
Proof.
  apply OptionSet.resolved_bool_options in Hresolved as (sh & be & Ho).
  exists sh, be.
  assert (Hs : options self !! "shared" = Some (PyBool sh))
    by (rewrite Ho; reflexivity).
  assert (Hb : options self !! "build_executable" = Some (PyBool be))
    by (rewrite Ho; reflexivity).
  rewrite (generate_Ok self _ _ Hs Hb).
  split_and!; [done | done | done |].
  (* the two maps hold the same three bindings, inserted in different orders *)
  unfold produced_toolchain, toolchain_variables. simpl. reflexivity.
Qed.

(** Scenario 1: [shared=False], [build_executable=True] on Linux. *)
Lemma generate_toolchain_configuration_witness :
  fst (generate (new_recipe default_options linux)) = Ok tt /\
  produced_toolchain (generate (new_recipe default_options linux)) =
    Some (<["MYLOBSTER_BUILD_TESTS" := PyBool false]>
          (<["MYLOBSTER_BUILD_SHARED" := PyBool false]>
           (<["MYLOBSTER_BUILD_EXECUTABLE" := PyBool true]> ∅))).
Proof.
  destruct (generate_toolchain_configuration (new_recipe default_options linux))
    as (sh & be & Hs & Hb & Hok & Htc).
  - vm_compute. reflexivity.
  - split; [exact Hok|].
    rewrite Htc. injection Hs as <-. injection Hb as <-. reflexivity.
Defined.

(** C6: [generate] is deterministic.  Two calls on recipe objects with the
    same resolved options and the same settings (whatever else the objects
    hold, such as files left by an earlier run) end the same way and write
    the same toolchain configuration; and a second call made right after the
    first repeats its outcome and leaves the same state. *)
Theorem generate_deterministic (self1 self2 : ConanFile)
    (Hoptions : options self1 = options self2)
    (Hsettings : settings self1 = settings self2) :
  fst (generate self1) = fst (generate self2) /\
  written_toolchain (generate self1) = written_toolchain (generate self2) /\
  generate (snd (generate self1)) = generate self1.
Proof.
  destruct (generate_cases self1) as [(sh & be & Hs & Hb & H1) | (e & H1 & Hsame)].
  - assert (H2 := generate_Ok self2 sh be).
    rewrite <- Hoptions in H2. specialize (H2 Hs Hb).
    rewrite H1, H2. split_and!; [done | done |].
    simpl. by rewrite (generate_Ok _ sh be).
  - rewrite H1, (Hsame self2) by done. split_and!; [done | done |].
    simpl. by apply Hsame.
Qed.

Lemma generate_deterministic_witness :
  written_toolchain
    (generate (new_recipe default_options linux))
  = written_toolchain
      (generate
         (mkConanFile default_options linux
            (mkCppInfo ["stale"] ∅ [] [])
            (mkGenerated (Some (<["MYLOBSTER_BUILD_TESTS" := PyBool true]> ∅)) None))).
Proof.
  apply (generate_deterministic
           (new_recipe default_options linux)
           (mkConanFile default_options linux
              (mkCppInfo ["stale"] ∅ [] [])
              (mkGenerated (Some (<["MYLOBSTER_BUILD_TESTS" := PyBool true]> ∅)) None)));
    reflexivity.
Defined.

(** C8: an override that names an option the recipe does not declare, or
    gives a declared option a value outside its declared domain, makes
    resolution fail with [InvalidOptionError]; the pipeline then stops with
    that error, the recipe object is left exactly as it was, and so no
    toolchain configuration is written. *)
Theorem invalid_override_rejected
    (overrides : gmap string pyval) (k : string) (v : pyval) (self : ConanFile)
    (Hoverride : overrides !! k = Some v)
    (Hinvalid : MyLobsterPPConan.options !! k = None \/
                exists dom, MyLobsterPPConan.options !! k = Some dom /\ v ∉ dom) :
  resolve overrides = Raise InvalidOptionError /\
  configure overrides self = (Raise InvalidOptionError, self) /\
  written_toolchain (configure overrides self) = None.
Proof.
  assert (Hd : MyLobsterPPConan.in_domain k v = false).
  { unfold MyLobsterPPConan.in_domain.
    destruct Hinvalid as [-> | (dom & -> & Hnot)]; [done|].
    by apply bool_decide_eq_false. }
  assert (Hv : MyLobsterPPConan.valid_overrides overrides = false).
  { destruct (MyLobsterPPConan.valid_overrides overrides) eqn:E; [|done].
    pose proof (proj1 (OptionSet.valid_overrides_true overrides) E k v Hoverride).
    congruence. }
  assert (Hr : resolve overrides = Raise InvalidOptionError)
    by by apply OptionSet.resolve_Raise.
  assert (Hc : configure overrides self = (Raise InvalidOptionError, self)).
  { unfold MyLobsterPPConan.configure. rewrite Hr. apply bind_lift_Raise. }
  split_and!; [done | done |]. by rewrite Hc.
Qed.

(** Scenario 3: the override [{shared: "yes"}]. *)
Lemma invalid_override_rejected_witness :
  resolve (<["shared" := PyStr "yes"]> ∅) = Raise InvalidOptionError /\
  configure (<["shared" := PyStr "yes"]> ∅) (new_recipe default_options linux)
    = (Raise InvalidOptionError, new_recipe default_options linux) /\
  written_toolchain
    (configure (<["shared" := PyStr "yes"]> ∅) (new_recipe default_options linux))
    = None.
Proof.
  apply (invalid_override_rejected
           (<["shared" := PyStr "yes"]> ∅) "shared" (PyStr "yes")
           (new_recipe default_options linux)).
  - reflexivity.
  - right. exists [PyBool true; PyBool false]. split; [reflexivity|].
    intros H. apply list_elem_of_In in H. simpl in H.
    destruct H as [H|[H|[]]]; discriminate H.
Defined.

End Configurator.

(** ** The package info publisher *)

Module Publisher.

#[local] Abbreviation package_info := MyLobsterPPConan.package_info.

(** [package_info] in closed form: it never raises, and only [cpp_info]
    changes. *)
Lemma package_info_run self :
  package_info self =
    (Ok tt,
     set_cpp_info
       (mkCppInfo ["mylobster_lib"]
          (<["cmake_target_name" := "mylobster::mylobster"]>
           (<["cmake_file_name" := "mylobster"]> (properties (cpp_info self))))
          []
          (system_libs_for (os (settings self))))
       self).
Proof.
  destruct self as [o s c g]. unfold MyLobsterPPConan.package_info, system_libs_for.
  unfold set_libs, set_property, set_requires, set_system_libs, settings_os.
  rewrite !bind_modify. unfold bind. simpl.
  destruct (decide (os s = "Windows")); reflexivity.
Qed.

Lemma published_package_info self :
  published (snd (package_info self)) =
    mkPackageInfo ["mylobster_lib"] (Some "mylobster") (Some "mylobster::mylobster")
      [] (system_libs_for (os (settings self))).
Proof.
  rewrite package_info_run. unfold published. simpl.
  rewrite lookup_insert_ne by done. by rewrite !lookup_insert_eq.
Qed.

Lemma recognized_os_false_not_windows s :
  recognized_os s = false -> s <> "Windows".
Proof.
  unfold recognized_os. intros H ->. by rewrite bool_decide_eq_true_2 in H.
Qed.

(** C3: the system-library list that [package_info] publishes is exactly
    [["ws2_32"]] when the OS is Windows and exactly [["pthread"]] for every
    other OS value, so in particular for Linux, macOS and the other
    POSIX-like systems. *)
Theorem package_info_system_libs (self : ConanFile) :
  fst (package_info self) = Ok tt /\
  (os (settings self) = "Windows" ->
   system_libs (cpp_info (snd (package_info self))) = ["ws2_32"]) /\
  (os (settings self) <> "Windows" ->
   system_libs (cpp_info (snd (package_info self))) = ["pthread"]) /\
  (os (settings self) ∈ posix_like ->
   system_libs (cpp_info (snd (package_info self))) = ["pthread"]).
Proof.
  rewrite package_info_run. simpl. unfold system_libs_for.
  split_and!; [done | | |].
  - intros ->. reflexivity.
  - intros H. by rewrite decide_False.
  - intros H. rewrite decide_False; [done|].
    intros E. rewrite E in H. apply list_elem_of_In in H. simpl in H.
    repeat (destruct H as [H|H]; [discriminate H|]). done.
Qed.

(** Scenarios 1 and 2: Linux, macOS and Windows. *)
Lemma package_info_system_libs_witness :
  system_libs (cpp_info (snd (package_info (new_recipe ∅ windows)))) = ["ws2_32"] /\
  system_libs (cpp_info (snd (package_info (new_recipe ∅ linux)))) = ["pthread"] /\
  system_libs (cpp_info (snd (package_info
     (new_recipe ∅ (mkSettings "Macos" "apple-clang" "Debug" "armv8"))))) = ["pthread"].
Proof.
  split_and!.
  - apply (proj1 (proj2 (package_info_system_libs (new_recipe ∅ windows)))).
    reflexivity.
  - apply (proj1 (proj2 (proj2 (package_info_system_libs (new_recipe ∅ linux))))).
    discriminate.
  - apply (proj2 (proj2 (proj2 (package_info_system_libs
       (new_recipe ∅ (mkSettings "Macos" "apple-clang" "Debug" "armv8")))))).
    apply list_elem_of_In. simpl. auto.
Defined.

(** C4, as claimed, fails: [baremetal] is neither Windows nor POSIX-like,
    and [package_info] does not raise [UnsupportedPlatformError] there; it
    returns normally and publishes [["pthread"]]. *)
Lemma package_info_baremetal_not_rejected :
  recognized_os (os (settings (new_recipe MyLobsterPPConan.default_options baremetal)))
    = false /\
  fst (package_info (new_recipe MyLobsterPPConan.default_options baremetal))
    <> Raise UnsupportedPlatformError /\
  fst (package_info (new_recipe MyLobsterPPConan.default_options baremetal)) = Ok tt /\
  system_libs (cpp_info (snd
    (package_info (new_recipe MyLobsterPPConan.default_options baremetal))))
    = ["pthread"].
Proof. split_and!; [reflexivity | discriminate | reflexivity | reflexivity]. Qed.

(** C4, amended: for every platform whose OS value is outside the recognized
    families, [package_info] does not fail: it returns normally and the
    system-library list it publishes is [["pthread"]]. *)
Theorem package_info_unrecognized_os (self : ConanFile)
    (Hos : recognized_os (os (settings self)) = false) :
  fst (package_info self) = Ok tt /\
  system_libs (cpp_info (snd (package_info self))) = ["pthread"].
Proof.
  apply recognized_os_false_not_windows in Hos.
  rewrite package_info_run. simpl. unfold system_libs_for.
  by rewrite decide_False.
Qed.

Lemma package_info_unrecognized_os_witness :
  fst (package_info (new_recipe ∅ baremetal)) = Ok tt /\
  system_libs (cpp_info (snd (package_info (new_recipe ∅ baremetal)))) = ["pthread"].
Proof.
  apply (package_info_unrecognized_os (new_recipe ∅ baremetal)). reflexivity.
Defined.

(** C5: [package_info] returns normally on every recipe object and leaves a
    fixed consumer contract: the link libraries are [["mylobster_lib"]], the
    package file name is ["mylobster"], the target name is
    ["mylobster::mylobster"] and [requires] is empty.  It does no I/O: the
    generators folder, the options and the settings are as before, only
    [cpp_info] is assigned. *)
Theorem package_info_contract (self : ConanFile) :
  fst (package_info self) = Ok tt /\
  libs (cpp_info (snd (package_info self))) = ["mylobster_lib"] /\
  properties (cpp_info (snd (package_info self))) !! "cmake_file_name"
    = Some "mylobster" /\
  properties (cpp_info (snd (package_info self))) !! "cmake_target_name"
    = Some "mylobster::mylobster" /\
  requires (cpp_info (snd (package_info self))) = [] /\
  generators_folder (snd (package_info self)) = generators_folder self /\
  options (snd (package_info self)) = options self /\
  settings (snd (package_info self)) = settings self.
Proof.
  rewrite package_info_run. simpl. split_and!; try reflexivity.
  - rewrite lookup_insert_ne by done. apply lookup_insert_eq.
  - apply lookup_insert_eq.
Qed.

(** C10: the published package info does not depend on the options.  Two
    recipe objects with the same OS setting, whatever their options (and
    whatever else they hold), publish the same library list, package name,
    target name, requires list and system-library list. *)
Theorem package_info_option_independent (self1 self2 : ConanFile)
    (Hos : os (settings self1) = os (settings self2)) :
  fst (package_info self1) = fst (package_info self2) /\
  published (snd (package_info self1)) = published (snd (package_info self2)).
Proof.
  rewrite !published_package_info, !package_info_run, Hos. done.
Qed.

Lemma package_info_option_independent_witness :
  published (snd (package_info
    (new_recipe (<["shared" := PyBool true]>
                 (<["build_executable" := PyBool false]> ∅)) linux)))
  = published (snd (package_info
    (new_recipe (<["shared" := PyBool false]>
                 (<["build_executable" := PyBool true]> ∅)) linux))).
Proof.
  apply (proj2 (package_info_option_independent
    (new_recipe (<["shared" := PyBool true]>
                 (<["build_executable" := PyBool false]> ∅)) linux)
    (new_recipe (<["shared" := PyBool false]>
                 (<["build_executable" := PyBool true]> ∅)) linux)
    eq_refl)).
Defined.

End Publisher.

(** ** Further properties of [generate] *)

Module GenerateFacts.

#[local] Abbreviation generate := MyLobsterPPConan.generate.

(** The state after a run differs from the state before at most in the
    generators folder. *)
Lemma generate_state (self : ConanFile) :
  exists g, snd (generate self) = set_generators_folder g self.
Proof.
  destruct (Configurator.generate_cases self)
    as [(sh & be & _ & _ & H) | (e & H & _)]; rewrite H; simpl.
  - by eexists.
  - exists (generators_folder self). by destruct self.
Qed.



(** [generate] only writes to the generators folder: the options, the
    settings and [cpp_info] are the same after it, whether it succeeds or
    raises. *)
Theorem generate_frame (self : ConanFile) :
  options (snd (generate self)) = options self /\
  settings (snd (generate self)) = settings self /\
  cpp_info (snd (generate self)) = cpp_info self.
Proof.
  destruct (generate_state self) as [g ->]. done.
Qed.

(** [generate] does not validate or convert option values: whatever values
    [shared] and [build_executable] have are stored as they are in
    [MYLOBSTER_BUILD_SHARED] and [MYLOBSTER_BUILD_EXECUTABLE], the test flag
    is [False], and no other variable is written, even when [self.options]
    holds further options. *)
Theorem generate_passes_values_through
    (self : ConanFile) (shared build_executable : pyval)
    (Hshared : options self !! "shared" = Some shared)
    (Hexe : options self !! "build_executable" = Some build_executable) :
  exists vars,
    toolchain_file (generators_folder (snd (generate self))) = Some vars /\
    vars !! "MYLOBSTER_BUILD_TESTS" = Some (PyBool false) /\
    vars !! "MYLOBSTER_BUILD_SHARED" = Some shared /\
    vars !! "MYLOBSTER_BUILD_EXECUTABLE" = Some build_executable /\
    dom vars = ({["MYLOBSTER_BUILD_TESTS"; "MYLOBSTER_BUILD_SHARED";
                  "MYLOBSTER_BUILD_EXECUTABLE"]} : gset string).
Proof.
  rewrite (Configurator.generate_Ok self _ _ Hshared Hexe). simpl.
  eexists. split; [reflexivity|]. unfold toolchain_variables.
  split_and!; [done | done | done |].
  rewrite !dom_insert_L, dom_empty_L. set_solver.
Qed.

Lemma generate_passes_values_through_witness :
  exists vars,
    toolchain_file (generators_folder (snd (generate
      (new_recipe (<["shared" := PyStr "yes"]>
                   (<["build_executable" := PyInt 1]>
                    (<["fPIC" := PyBool true]> ∅))) linux)))) = Some vars /\
    vars !! "MYLOBSTER_BUILD_TESTS" = Some (PyBool false) /\
    vars !! "MYLOBSTER_BUILD_SHARED" = Some (PyStr "yes") /\
    vars !! "MYLOBSTER_BUILD_EXECUTABLE" = Some (PyInt 1) /\
    dom vars = ({["MYLOBSTER_BUILD_TESTS"; "MYLOBSTER_BUILD_SHARED";
                  "MYLOBSTER_BUILD_EXECUTABLE"]} : gset string).
Proof.
  apply (generate_passes_values_through
           (new_recipe (<["shared" := PyStr "yes"]>
                        (<["build_executable" := PyInt 1]>
                         (<["fPIC" := PyBool true]> ∅))) linux));
    reflexivity.
Defined.

(** Generating again after the options changed replaces the earlier
    configuration: with both options present in the new options, the run
    ends in the same state as a run on a recipe that never generated
    before; no variable of the earlier toolchain file survives. *)
Theorem generate_replaces_earlier_run (self : ConanFile) (o : gmap string pyval)
    (Hshared : is_Some (o !! "shared"))
    (Hexe : is_Some (o !! "build_executable")) :
  generate (set_options o (snd (generate self))) = generate (set_options o self).
Proof.
  destruct Hshared as [sh Hs]. destruct Hexe as [be Hb].
  rewrite (Configurator.generate_Ok (set_options o self) sh be) by done.
  rewrite (Configurator.generate_Ok (set_options o (snd (generate self))) sh be)
    by done.
  f_equal. by destruct (generate_state self) as [g ->].
Qed.

Lemma generate_replaces_earlier_run_witness :
  generate
    (set_options (<["shared" := PyBool true]> MyLobsterPPConan.default_options)
       (snd (generate (new_recipe MyLobsterPPConan.default_options linux))))
  = generate
      (set_options (<["shared" := PyBool true]> MyLobsterPPConan.default_options)
         (new_recipe MyLobsterPPConan.default_options linux)).
Proof.
  apply (generate_replaces_earlier_run
           (new_recipe MyLobsterPPConan.default_options linux)
           (<["shared" := PyBool true]> MyLobsterPPConan.default_options));
    by eexists.
Defined.

End GenerateFacts.

(** ** Further properties of [package_info] *)

Module PackageInfoFacts.

#[local] Abbreviation package_info := MyLobsterPPConan.package_info.
#[local] Abbreviation generate := MyLobsterPPConan.generate.

(** Assigning the two names again over a dictionary that already has them
    changes nothing. *)
Lemma set_names_twice (p : gmap string string) :
  <["cmake_target_name" := "mylobster::mylobster"]>
    (<["cmake_file_name" := "mylobster"]>
       (<["cmake_target_name" := "mylobster::mylobster"]>
          (<["cmake_file_name" := "mylobster"]> p)))
  = <["cmake_target_name" := "mylobster::mylobster"]>
      (<["cmake_file_name" := "mylobster"]> p).
Proof.
  apply map_eq. intros k.
  destruct (decide (k = "cmake_target_name")) as [->|Ht].
  { by rewrite !lookup_insert_eq. }
  rewrite !(lookup_insert_ne _ "cmake_target_name") by done.
  destruct (decide (k = "cmake_file_name")) as [->|Hf].
  { by rewrite !lookup_insert_eq. }
  by rewrite !lookup_insert_ne.
Qed.

(** Calling [package_info] a second time changes nothing: the outcome and
    the recipe object are those of the first call. *)
Theorem package_info_idempotent (self : ConanFile) :
  package_info (snd (package_info self)) = package_info self.
Proof.
  rewrite (Publisher.package_info_run (snd (package_info self))).
  rewrite (Publisher.package_info_run self). simpl.
  unfold set_cpp_info. simpl. by rewrite set_names_twice.
Qed.

(** [package_info] adds the two names to the properties of [cpp_info] and
    leaves every other property as it was. *)
Theorem package_info_keeps_other_properties (self : ConanFile) :
  dom (properties (cpp_info (snd (package_info self))))
    = ({["cmake_file_name"; "cmake_target_name"]} : gset string)
      ∪ dom (properties (cpp_info self)) /\
  forall k, k <> "cmake_file_name" -> k <> "cmake_target_name" ->
    properties (cpp_info (snd (package_info self))) !! k
    = properties (cpp_info self) !! k.
Proof.
  rewrite Publisher.package_info_run. simpl. split.
  - rewrite !dom_insert_L. apply set_eq. intros x.
    rewrite !elem_of_union, !elem_of_singleton. tauto.
  - intros k Hf Ht. by rewrite !lookup_insert_ne.
Qed.

(** The system-library list is assigned, not extended: after [package_info]
    it has exactly one entry whatever it held before, and that entry is
    ["ws2_32"] exactly when the [os] setting is the string ["Windows"]. *)
Theorem package_info_system_libs_overwritten (self : ConanFile) :
  length (system_libs (cpp_info (snd (package_info self)))) = 1 /\
  (system_libs (cpp_info (snd (package_info self))) = ["ws2_32"]
     <-> os (settings self) = "Windows") /\
  (system_libs (cpp_info (snd (package_info self))) = ["pthread"]
     <-> os (settings self) <> "Windows").
Proof.
  rewrite Publisher.package_info_run. simpl. unfold system_libs_for.
  destruct (decide (os (settings self) = "Windows")) as [E|E];
    split_and!; try done; split; done.
Qed.

(** [generate] and [package_info] work on separate parts of the recipe
    object: when both options are present, running them in either order
    ends in the same state. *)
Theorem generate_package_info_commute (self : ConanFile)
    (Hshared : is_Some (options self !! "shared"))
    (Hexe : is_Some (options self !! "build_executable")) :
  (generate;;; package_info) self = (package_info;;; generate) self.
Proof.
  destruct Hshared as [sh Hs]. destruct Hexe as [be Hb].
  unfold bind.
  rewrite (Configurator.generate_Ok self sh be Hs Hb).
  rewrite (Publisher.package_info_run self).
  rewrite Publisher.package_info_run.
  rewrite (Configurator.generate_Ok _ sh be) by done.
  reflexivity.
Qed.

Lemma generate_package_info_commute_witness :
  (generate;;; package_info) (new_recipe MyLobsterPPConan.default_options windows)
  = (package_info;;; generate) (new_recipe MyLobsterPPConan.default_options windows).
Proof.
  apply (generate_package_info_commute
           (new_recipe MyLobsterPPConan.default_options windows));
    by eexists.
Defined.

End PackageInfoFacts.
